(** Shallow embedding of [dnac.py]: the SNMP compliance pipeline that exports
    device configurations from DNA Center, validates their
    [snmp-server host] lines, synthesizes a Velocity remediation template and
    deploys it.  Remote calls are modelled by the sequence of answers they
    return; the unbounded [while True] polling loops are run on fuel. *)

From Stdlib Require Import String Ascii List Bool Arith PArith Lia.
Import ListNotations.
Open Scope list_scope.
Open Scope string_scope.
Open Scope nat_scope.

(* ------------------------------------------------------------------ *)
(** * Python string primitives *)

(** [sub in s] for Python strings: [sub] occurs at some position of [s]. *)
Fixpoint str_prefix (p s : string) : bool :=
  match p, s with
  | EmptyString, _ => true
  | String a p', String b s' => Ascii.eqb a b && str_prefix p' s'
  | String _ _, EmptyString => false
  end.

Fixpoint py_in (sub s : string) : bool :=
  str_prefix sub s ||
  match s with
  | EmptyString => false
  | String _ s' => py_in sub s'
  end.

(** [str.isspace] restricted to ASCII: \t \n \v \f \r, the separators
    0x1c-0x1f and the space. *)
Definition py_isspace (c : ascii) : bool :=
  let n := nat_of_ascii c in
  ((9 <=? n) && (n <=? 13)) || ((28 <=? n) && (n <=? 32)).

Fixpoint lstrip (s : string) : string :=
  match s with
  | EmptyString => EmptyString
  | String c s' => if py_isspace c then lstrip s' else s
  end.

Definition string_rev (s : string) : string :=
  string_of_list_ascii (rev (list_ascii_of_string s)).

(** [str.strip()]: leading and trailing whitespace removed. *)
Definition strip (s : string) : string :=
  string_rev (lstrip (string_rev (lstrip s))).

(** [sep.join(items)]. *)
Fixpoint py_join (sep : string) (items : list string) : string :=
  match items with
  | [] => EmptyString
  | [x] => x
  | x :: rest => x ++ sep ++ py_join sep rest
  end.

Definition newline : string := String (ascii_of_nat 10) EmptyString.

(** A Python dict with string keys, in insertion order:
    [d[k] = v] replaces the value in place when [k] is present and appends
    the pair otherwise. *)
Fixpoint dict_set {V : Type} (k : string) (v : V) (d : list (string * V))
  : list (string * V) :=
  match d with
  | [] => [(k, v)]
  | (k', v') :: rest =>
      if String.eqb k k' then (k, v) :: rest else (k', v') :: dict_set k v rest
  end.

(* ------------------------------------------------------------------ *)
(** * ARCHIVE_SECRET (lines 75-78) *)

Definition ascii_letters : string :=
  "abcdefghijklmnopqrstuvwxyzABCDEFGHIJKLMNOPQRSTUVWXYZ".
Definition digits : string := "0123456789".

(** [secrets.choice(seq)] is [seq[randbelow(len(seq))]]; the draw is the
    argument [r].  An index out of range would raise, hence the option. *)
Definition secrets_choice (seq : string) (r : nat) : option ascii :=
  String.get r seq.

(** [randbelow i] is the value drawn by the [i]-th call of the generator
    expression [for i in range(16)]. *)
Fixpoint join_choices (seq : string) (randbelow : nat -> nat) (idx : list nat)
  : option string :=
  match idx with
  | [] => Some EmptyString
  | i :: rest =>
      match secrets_choice seq (randbelow i), join_choices seq randbelow rest with
      | Some c, Some s => Some (String c s)
      | _, _ => None
      end
  end.

Definition ARCHIVE_SECRET (randbelow : nat -> nat) : option string :=
  match join_choices (ascii_letters ++ digits) randbelow (seq 0 16) with
  | Some s => Some (s ++ "!")
  | None => None
  end.

Definition is_alnum (c : ascii) : bool :=
  let n := nat_of_ascii c in
  ((48 <=? n) && (n <=? 57)) || ((65 <=? n) && (n <=? 90))
  || ((97 <=? n) && (n <=? 122)).

(* ------------------------------------------------------------------ *)
(** * Pipeline definitions *)

Section Pipeline.

(** The configured constants of the script (lines 48-52, 69). *)
Variable VALID_SNMP_SERVER_HOST : string.
Variable VALID_SNMP_SERVER_COMMUNITY : string.
Variable NEW_CONFIG : string.
Variable LOCATION_FILTER : list string.

(** ** unzipConfigFile (lines 150-155): choosing the archive.
    [target_file] is [None] while the Python local is still unbound; opening
    [None] is the [UnboundLocalError] raised at line 155. *)
Fixpoint scan_directory (directory : list string) (target_file : option string)
  : option string :=
  match directory with
  | [] => target_file
  | file :: rest =>
      scan_directory rest
        (if py_in "Export_Configs" file then Some file else target_file)
  end.

Definition unzip_target (directory : list string) : option string :=
  scan_directory directory None.

(** ** validate_snmp_config (lines 178-208).
    [running_config] is the list of lines of the RUNNINGCONFIG.cfg file, as
    the file iterator yields them (with their line terminator). The loop
    returns [bad_config] and [config_found]. *)
Fixpoint validate_loop (running_config : list string) (bad_config : list string)
  (config_found : bool) : list string * bool :=
  match running_config with
  | [] => (bad_config, config_found)
  | line :: rest =>
      if py_in "snmp-server host" (strip line) then
        if py_in VALID_SNMP_SERVER_HOST line
           && py_in VALID_SNMP_SERVER_COMMUNITY line
        then validate_loop rest bad_config true
        else validate_loop rest (bad_config ++ [strip line])%list true
      else validate_loop rest bad_config config_found
  end.

Definition validate_snmp_config (running_config : list string) : list string :=
  fst (validate_loop running_config [] false).

(** ** Device records: the values of [target_devices], [{"id": ...}] with an
    optional ["bad_config"] entry. *)
Record DeviceRecord := {
  id : string;
  bad_config : option (list string)
}.

Definition DeviceList := list (string * DeviceRecord).

(** ** generateTemplatePayload (lines 243-260). *)
Definition guard_open (device : string) : string :=
  "#if($device_ip == '" ++ device ++ "')".

Definition device_block (device : string) (r : DeviceRecord) : list string :=
  match bad_config r with
  | Some items =>
      guard_open device :: map (fun config_item => "no " ++ config_item) items
        ++ ["#end"; ""]
  | None => []
  end.

(** Lines appended by the [for device in device_list] loop. *)
Fixpoint template_lines (device_list : DeviceList) : list string :=
  match device_list with
  | [] => []
  | (device, r) :: rest => (device_block device r ++ template_lines rest)%list
  end.

(** The full [template_payload] list once [NEW_CONFIG] is appended. *)
Definition template_payload_lines (device_list : DeviceList) : list string :=
  (template_lines device_list ++ [NEW_CONFIG])%list.

Definition generateTemplatePayload (device_list : DeviceList) : string :=
  py_join newline (template_payload_lines device_list).

(** ** run (lines 359-425). *)
Record Device := {
  dev_id : string;
  managementIpAddress : string;
  family : string;
  series : string
}.

(** Building [target_devices]; [location_of] stands for the location in
    [get_device_detail] of a device id. *)
Definition add_target (location_of : string -> string)
  (target_devices : DeviceList) (device : Device) : DeviceList :=
  if (1 <=? length LOCATION_FILTER)
     && negb (existsb (String.eqb (location_of (dev_id device))) LOCATION_FILTER)
  then target_devices
  else dict_set (managementIpAddress device)
         {| id := dev_id device; bad_config := None |} target_devices.

Definition build_target_devices (location_of : string -> string)
  (devices : list Device) : DeviceList :=
  fold_left (add_target location_of) devices [].

Record Target := {
  t_id : string;
  t_type : string;
  t_params : list (string * string)
}.

Definition deploy_target (device : string) : Target :=
  {| t_id := device; t_type := "MANAGED_DEVICE_IP";
     t_params := [("device_ip", device)] |}.

(** The Step 4 loop: [validate device] is [validate_snmp_config(device)] on
    that device's exported configuration.  Returns the updated
    [target_devices] and [deployable_devices]. *)
Fixpoint validation_loop (validate : string -> list string)
  (target_devices : DeviceList) : DeviceList * list Target :=
  match target_devices with
  | [] => ([], [])
  | (device, r) :: rest =>
      let result := validate device in
      let r' := match result with
                | [] => r
                | _ => {| id := id r; bad_config := Some result |}
                end in
      let '(ds, deployable_devices) := validation_loop validate rest in
      ((device, r') :: ds, deploy_target device :: deployable_devices)
  end.

End Pipeline.

(* ------------------------------------------------------------------ *)
(** * Polling loops *)

(** ** checkTaskStatus (lines 108-119).  [get_task_by_id n] is the answer of
    the [n]-th status query; [endTime] is null or a positive epoch time. *)
Record TaskStatus := {
  progress : string;
  endTime : option positive;
  task_payload : list (string * string)
}.

Definition endTime_truthy (t : TaskStatus) : bool :=
  match endTime t with Some _ => true | None => false end.

(** Result: the returned payload (if the loop returned within [fuel]
    iterations) and the number of queries made. *)
Fixpoint checkTaskStatus_loop (fuel : nat) (get_task_by_id : nat -> TaskStatus)
  (calls : nat) : option TaskStatus * nat :=
  match fuel with
  | 0 => (None, calls)
  | S fuel' =>
      let task_status := get_task_by_id calls in
      if endTime_truthy task_status then (Some task_status, S calls)
      else checkTaskStatus_loop fuel' get_task_by_id (S calls)
  end.

Definition checkTaskStatus (fuel : nat) (get_task_by_id : nat -> TaskStatus)
  : option TaskStatus * nat :=
  checkTaskStatus_loop fuel get_task_by_id 0.

(** ** deployTemplate (lines 336-348). *)
Record DeployStatus := {
  status : string;
  deploy_payload : list (string * string)
}.

Inductive DeployEvent :=
| DeploymentComplete
| DeploymentFailed (response : DeployStatus).

Record DeployRun := {
  queries : nat;
  events : list DeployEvent;
  finished : bool
}.

Fixpoint deploy_loop (fuel : nat) (get_status : nat -> DeployStatus)
  (calls : nat) (log : list DeployEvent) : DeployRun :=
  match fuel with
  | 0 => {| queries := calls; events := log; finished := false |}
  | S fuel' =>
      let response := get_status calls in
      if String.eqb (status response) "SUCCESS" then
        {| queries := S calls; events := (log ++ [DeploymentComplete])%list;
           finished := true |}
      else
        let log' := if String.eqb (status response) "FAILURE"
                    then (log ++ [DeploymentFailed response])%list else log in
        deploy_loop fuel' get_status (S calls) log'
  end.

Definition deployTemplate (fuel : nat) (get_status : nat -> DeployStatus)
  : DeployRun :=
  deploy_loop fuel get_status 0 [].

(* ------------------------------------------------------------------ *)
(** * Further parts of the script *)

(** [s.split(sep)] for a one-character separator. *)
Fixpoint py_split (sep : ascii) (s : string) : list string :=
  match s with
  | EmptyString => [EmptyString]
  | String c s' =>
      let parts := py_split sep s' in
      if Ascii.eqb c sep then EmptyString :: parts
      else match parts with
           | p :: ps => String c p :: ps
           | [] => [String c EmptyString]
           end
  end.

Fixpoint has_char (c : ascii) (s : string) : bool :=
  match s with
  | EmptyString => false
  | String c' s' => Ascii.eqb c' c || has_char c s'
  end.

(** downloadFile (lines 134-135): [file_location.split("/")[4]];
    [None] is the [IndexError] of a location with fewer than four slashes. *)
Definition downloadFile_file_id (file_location : string) : option string :=
  nth_error (py_split "/"%char file_location) 4.

(** deployTemplate (line 335): [str(deploymentId).split(":")[-1].strip()]. *)
Definition deploy_id_of (deploymentId : string) : string :=
  strip (last (py_split ":"%char deploymentId) EmptyString).

(** [s.endswith(suffix)]. *)
Definition py_endswith (s suffix : string) : bool :=
  str_prefix (string_rev suffix) (string_rev s).

(** validate_snmp_config (lines 180-183): the running configuration file of
    the device folder; [None] is the unbound [running_config] that makes the
    [open] at line 184 raise. *)
Fixpoint find_running_config (path : string) (files : list string)
  (running_config : option string) : option string :=
  match files with
  | [] => running_config
  | file :: rest =>
      find_running_config path rest
        (if py_endswith file "RUNNINGCONFIG.cfg" then Some (path ++ file)
         else running_config)
  end.

Definition running_config_path (device_ip : string) (files : list string)
  : option string :=
  find_running_config ("./configfiles/" ++ device_ip ++ "/") files None.

(** createNewTemplate (lines 278-312).  [create_ok] is whether
    [create_template] returned without [ApiError]; [confirm_answer] the
    operator's answer to the [Continue] prompt; [templates] the
    [project[0]["templates"]] list queried afterwards. *)
Record Template := {
  tpl_name : string;
  tpl_id : string
}.

Fixpoint find_template_id (TEMPLATE_NAME : string) (templates : list Template)
  (template_id : option string) : option string :=
  match templates with
  | [] => template_id
  | template :: rest =>
      find_template_id TEMPLATE_NAME rest
        (if String.eqb (tpl_name template) TEMPLATE_NAME
         then Some (tpl_id template) else template_id)
  end.

Inductive CreateOutcome :=
| CreateAborted                          (* sys.exit(1) at line 299 *)
| CreateUnboundId                        (* template_id unbound at line 309 *)
| CreateCommitted (template_id : string). (* version committed, id returned *)

Record CreateRun := {
  prompted : bool;
  outcome : CreateOutcome
}.

Definition createNewTemplate (TEMPLATE_NAME : string) (create_ok : bool)
  (confirm_answer : bool) (templates : list Template) : CreateRun :=
  let error := negb create_ok in
  if error && negb confirm_answer
  then {| prompted := true; outcome := CreateAborted |}
  else {| prompted := error;
          outcome := match find_template_id TEMPLATE_NAME templates None with
                     | Some template_id => CreateCommitted template_id
                     | None => CreateUnboundId
                     end |}.

(** run (lines 377-381 and 389): the device types sent with the template
    and the device ids sent with the export request. *)
Definition device_types (devices : list Device) : list (string * string) :=
  map (fun device => (family device, series device)) devices.

Definition export_device_ids (target_devices : DeviceList) : list string :=
  map (fun p => id (snd p)) target_devices.

(** [d.get(k)] on a dict modelled as an association list. *)
Fixpoint dict_get {V : Type} (k : string) (d : list (string * V)) : option V :=
  match d with
  | [] => None
  | (k', v) :: rest => if String.eqb k k' then Some v else dict_get k rest
  end.

(** The location test of [run] (lines 365-371), as a boolean: [true] when
    the device is added to [target_devices]. *)
Definition location_keep (LOCATION_FILTER : list string)
  (location_of : string -> string) (device : Device) : bool :=
  negb ((1 <=? length LOCATION_FILTER)
        && negb (existsb (String.eqb (location_of (dev_id device)))
                   LOCATION_FILTER)).

Definition last_opt {A : Type} (l : list A) : option A :=
  match rev l with
  | [] => None
  | x :: _ => Some x
  end.

(** First non-empty line counted from the end of a line list. *)
Fixpoint last_nonempty (lines : list string) : option string :=
  match lines with
  | [] => None
  | x :: rest =>
      match last_nonempty rest with
      | Some y => Some y
      | None => if String.eqb x "" then None else Some x
      end
  end.

(* ================================================================== *)
(** * Properties *)

(** ** Helper lemmas on strings *)

Lemma string_length_append (s t : string) :
  String.length (s ++ t) = String.length s + String.length t.
Proof. induction s as [|c s IH]; simpl; [reflexivity | now rewrite IH]. Qed.

Lemma get_append_left (s t : string) (n : nat) :
  n < String.length s -> String.get n (s ++ t) = String.get n s.
Proof.
  revert n; induction s as [|c s IH]; intros n Hn; simpl in *; [lia|].
  destruct n as [|n]; [reflexivity|]. apply IH; lia.
Qed.

Lemma get_append_right (s t : string) :
  String.get (String.length s) (s ++ t) = String.get 0 t.
Proof. induction s as [|c s IH]; simpl; [reflexivity | exact IH]. Qed.

Lemma append_cancel_right (a b s : string) : a ++ s = b ++ s -> a = b.
Proof.
  revert b; induction a as [|x a IH]; intros [|y b] H; simpl in *.
  - reflexivity.
  - exfalso. apply (f_equal String.length) in H. simpl in H.
    rewrite string_length_append in H. lia.
  - exfalso. apply (f_equal String.length) in H. simpl in H.
    rewrite string_length_append in H. lia.
  - injection H as -> H. now rewrite (IH b H).
Qed.

Lemma append_cancel_left (p a b : string) : p ++ a = p ++ b -> a = b.
Proof. induction p as [|x p IH]; simpl; [easy | intros H; injection H; auto]. Qed.

(** ** The validator's loop *)

Definition selected_noncompliant (host community line : string) : bool :=
  py_in "snmp-server host" (strip line)
  && negb (py_in host line && py_in community line).

Lemma validate_loop_spec host community lines acc found :
  fst (validate_loop host community lines acc found)
  = (acc ++ map strip (filter (selected_noncompliant host community) lines))%list.
Proof.
  revert acc found; induction lines as [|line rest IH]; intros acc found; simpl.
  - now rewrite app_nil_r.
  - unfold selected_noncompliant at 1.
    destruct (py_in "snmp-server host" (strip line)); simpl.
    + destruct (py_in host line && py_in community line); simpl.
      * apply IH.
      * rewrite IH. simpl. now rewrite <- app_assoc.
    + apply IH.
Qed.

(** ** The archive scan *)

Lemma scan_directory_last directory target_file :
  scan_directory directory target_file
  = match rev (filter (py_in "Export_Configs") directory) with
    | [] => target_file
    | f :: _ => Some f
    end.
Proof.
  revert target_file; induction directory as [|file rest IH]; intros t; simpl.
  - reflexivity.
  - rewrite IH. destruct (py_in "Export_Configs" file) eqn:E; simpl.
    + destruct (rev (filter (py_in "Export_Configs") rest)); reflexivity.
    + reflexivity.
Qed.

(** ** The archive passphrase *)

Lemma alphabet_alnum (r : nat) :
  r < 62 ->
  exists c, secrets_choice (ascii_letters ++ digits) r = Some c
            /\ is_alnum c = true.
Proof.
  intros Hr.
  do 62 (destruct r as [|r]; [eexists; split; reflexivity|]).
  lia.
Qed.

Lemma join_choices_alnum (randbelow : nat -> nat) (idx : list nat) :
  (forall i, randbelow i < 62) ->
  exists s, join_choices (ascii_letters ++ digits) randbelow idx = Some s
    /\ String.length s = length idx
    /\ forall n, n < String.length s ->
         exists c, String.get n s = Some c /\ is_alnum c = true.
Proof.
  intros Hr; induction idx as [|i rest IH].
  - exists EmptyString; repeat split; simpl; intros; lia.
  - cbn [join_choices length].
    destruct (alphabet_alnum (randbelow i) (Hr i)) as [c [Hc Ha]].
    destruct IH as [s [Hs [Hl Hget]]].
    rewrite Hc, Hs. exists (String c s); repeat split; simpl.
    + now rewrite Hl.
    + intros [|n] Hn; [now exists c|]. apply Hget; lia.
Qed.

(** ** The template's guard lines *)

Lemma guard_open_inj (d1 d2 : string) : guard_open d1 = guard_open d2 -> d1 = d2.
Proof.
  unfold guard_open. intros H.
  apply append_cancel_left in H. now apply append_cancel_right in H.
Qed.

Lemma guard_open_not_removal (d x : string) : guard_open d <> "no " ++ x.
Proof. unfold guard_open; simpl; intros H; inversion H. Qed.

Lemma in_device_block (d device : string) (r : DeviceRecord) :
  In (guard_open d) (device_block device r) <-> d = device /\ bad_config r <> None.
Proof.
  unfold device_block. destruct (bad_config r) as [items|]; simpl.
  - split.
    + intros [H | H].
      * split; [now apply guard_open_inj | discriminate].
      * apply in_app_iff in H as [H | H].
        -- apply in_map_iff in H as [x [Hx _]].
           exact (False_ind _ (guard_open_not_removal d x (eq_sym Hx))).
        -- simpl in H. unfold guard_open in H; simpl in H.
           destruct H as [H | [H | []]]; inversion H.
    + intros [-> _]. now left.
  - split; [intros [] | intros [_ H]; now exfalso].
Qed.

Lemma in_template_lines (d : string) (device_list : DeviceList) :
  In (guard_open d) (template_lines device_list)
  <-> exists r, In (d, r) device_list /\ bad_config r <> None.
Proof.
  induction device_list as [|[device r] rest IH]; simpl.
  - split; [intros [] | intros [r [[] _]]].
  - rewrite in_app_iff, in_device_block, IH. split.
    + intros [[-> Hr] | [r' [Hin Hr']]].
      * exists r; auto.
      * exists r'; auto.
    + intros [r' [[Heq | Hin] Hr']].
      * injection Heq as -> ->. now left.
      * right; eauto.
Qed.

Lemma template_lines_none (device_list : DeviceList) :
  (forall p, In p device_list -> bad_config (snd p) = None) ->
  template_lines device_list = [].
Proof.
  induction device_list as [|[device r] rest IH]; intros H; simpl; [reflexivity|].
  unfold device_block. pose proof (H (device, r) (or_introl eq_refl)) as Hr.
  simpl in Hr. rewrite Hr. apply IH. intros p Hp. apply H. now right.
Qed.

Lemma template_lines_findings (dl1 dl2 : DeviceList) :
  map (fun p => (fst p, bad_config (snd p))) dl1
  = map (fun p => (fst p, bad_config (snd p))) dl2 ->
  template_lines dl1 = template_lines dl2.
Proof.
  revert dl2; induction dl1 as [|[d1 r1] rest1 IH]; intros [|[d2 r2] rest2] H;
    simpl in *; try discriminate; [reflexivity|].
  injection H as -> Hb Hrest.
  unfold device_block. rewrite Hb. f_equal. now apply IH.
Qed.

Lemma py_join_app_single (sep : string) (body : list string) (x : string) :
  body = [] -> py_join sep (body ++ [x])%list = x.
Proof. now intros ->. Qed.

(** ** Building [target_devices] and [deployable_devices] *)

Lemma dict_set_keys {V : Type} (k k' : string) (v : V) (d : list (string * V)) :
  In k' (map fst (dict_set k v d)) <-> k' = k \/ In k' (map fst d).
Proof.
  induction d as [|[k0 v0] rest IH]; simpl.
  - intuition congruence.
  - destruct (String.eqb_spec k k0) as [-> | Hne]; simpl.
    + intuition congruence.
    + rewrite IH. intuition congruence.
Qed.

Lemma dict_set_nodup {V : Type} (k : string) (v : V) (d : list (string * V)) :
  NoDup (map fst d) -> NoDup (map fst (dict_set k v d)).
Proof.
  induction d as [|[k0 v0] rest IH]; simpl; intros Hnd.
  - constructor; [intros [] | constructor].
  - inversion Hnd as [|? ? Hnotin Hnd']; subst.
    destruct (String.eqb_spec k k0) as [-> | Hne]; simpl.
    + now constructor.
    + constructor; [|now apply IH].
      rewrite dict_set_keys. intros [H | H]; [congruence | contradiction].
Qed.

Lemma dict_set_values {V : Type} (P : V -> Prop) (k : string) (v : V)
  (d : list (string * V)) :
  (forall p, In p d -> P (snd p)) -> P v ->
  forall p, In p (dict_set k v d) -> P (snd p).
Proof.
  induction d as [|[k0 v0] rest IH]; simpl; intros Hd Hv p Hp.
  - destruct Hp as [<- | []]; exact Hv.
  - destruct (String.eqb k k0); simpl in Hp.
    + destruct Hp as [<- | Hp]; [exact Hv | apply Hd; now right].
    + destruct Hp as [<- | Hp]; [apply Hd; now left|].
      apply IH; auto.
Qed.

Definition location_kept (LOCATION_FILTER : list string)
  (location_of : string -> string) (device : Device) : Prop :=
  LOCATION_FILTER = [] \/ In (location_of (dev_id device)) LOCATION_FILTER.

Lemma add_target_keys LOCATION_FILTER location_of target_devices device k :
  In k (map fst target_devices) ->
  In k (map fst (add_target LOCATION_FILTER location_of target_devices device)).
Proof.
  intros H. unfold add_target.
  destruct (_ && _); [exact H|]. apply dict_set_keys; now right.
Qed.

Lemma add_target_kept LOCATION_FILTER location_of target_devices device :
  location_kept LOCATION_FILTER location_of device ->
  In (managementIpAddress device)
     (map fst (add_target LOCATION_FILTER location_of target_devices device)).
Proof.
  intros Hk. unfold add_target.
  destruct (1 <=? length LOCATION_FILTER) eqn:Hlen; simpl.
  - destruct Hk as [-> | Hin]; [discriminate|].
    assert (Hex : existsb (String.eqb (location_of (dev_id device)))
                    LOCATION_FILTER = true).
    { apply existsb_exists. exists (location_of (dev_id device)).
      split; [exact Hin | apply String.eqb_refl]. }
    rewrite Hex. simpl. apply dict_set_keys; now left.
  - apply dict_set_keys; now left.
Qed.

Lemma add_target_invariant LOCATION_FILTER location_of target_devices device :
  NoDup (map fst target_devices) ->
  (forall p, In p target_devices -> bad_config (snd p) = None) ->
  NoDup (map fst (add_target LOCATION_FILTER location_of target_devices device))
  /\ (forall p, In p (add_target LOCATION_FILTER location_of target_devices device)
        -> bad_config (snd p) = None).
Proof.
  intros Hnd Hnone. unfold add_target.
  destruct (_ && _); [split; assumption|].
  split; [now apply dict_set_nodup|].
  apply (dict_set_values (fun r => bad_config r = None)); auto.
Qed.

Lemma build_target_devices_spec LOCATION_FILTER location_of devices :
  forall target_devices,
  NoDup (map fst target_devices) ->
  (forall p, In p target_devices -> bad_config (snd p) = None) ->
  let td := fold_left (add_target LOCATION_FILTER location_of) devices
              target_devices in
  NoDup (map fst td)
  /\ (forall p, In p td -> bad_config (snd p) = None)
  /\ (forall k, In k (map fst target_devices) -> In k (map fst td))
  /\ (forall device, In device devices ->
        location_kept LOCATION_FILTER location_of device ->
        In (managementIpAddress device) (map fst td)).
Proof.
  induction devices as [|device rest IH]; intros target_devices Hnd Hnone; simpl.
  - repeat split; auto. intros _ [].
  - destruct (add_target_invariant LOCATION_FILTER location_of target_devices
                device Hnd Hnone) as [Hnd' Hnone'].
    destruct (IH _ Hnd' Hnone') as [H1 [H2 [H3 H4]]].
    repeat split; auto.
    + intros k Hk. apply H3. now apply add_target_keys.
    + intros dv [<- | Hin] Hk; [|now apply H4].
      apply H3. now apply add_target_kept.
Qed.

Definition record_after_validation (validate : string -> list string)
  (p : string * DeviceRecord) : string * DeviceRecord :=
  let '(device, r) := p in
  let result := validate device in
  (device, match result with
           | [] => r
           | _ => {| id := id r; bad_config := Some result |}
           end).

Lemma validation_loop_spec (validate : string -> list string)
  (target_devices : DeviceList) :
  validation_loop validate target_devices
  = (map (record_after_validation validate) target_devices,
     map (fun p => deploy_target (fst p)) target_devices).
Proof.
  induction target_devices as [|[device r] rest IH]; simpl; [reflexivity|].
  rewrite IH. reflexivity.
Qed.

Lemma last_nonempty_snoc (lines : list string) (x : string) :
  x <> "" -> last_nonempty (lines ++ [x])%list = Some x.
Proof.
  intros Hx. induction lines as [|y rest IH]; simpl.
  - destruct (String.eqb_spec x ""); [contradiction | reflexivity].
  - now rewrite IH.
Qed.

Lemma last_snoc {A : Type} (l : list A) (x d : A) : last (l ++ [x])%list d = x.
Proof.
  induction l as [|y [|z rest] IH]; simpl in *; [reflexivity | reflexivity |].
  exact IH.
Qed.

(** ** The polling loops *)

Lemma checkTaskStatus_loop_first (get_task_by_id : nat -> TaskStatus) (k : nat) :
  endTime (get_task_by_id k) <> None ->
  (forall j, j < k -> endTime (get_task_by_id j) = None) ->
  forall fuel calls, calls <= k -> k - calls < fuel ->
  checkTaskStatus_loop fuel get_task_by_id calls = (Some (get_task_by_id k), S k).
Proof.
  intros Hk Hbefore fuel; induction fuel as [|fuel IH]; intros calls Hc Hf;
    [lia|].
  simpl. unfold endTime_truthy.
  destruct (Nat.eq_dec calls k) as [-> | Hne].
  - destruct (endTime (get_task_by_id k)); [reflexivity | contradiction].
  - rewrite (Hbefore calls) by lia. apply IH; lia.
Qed.

(** Status answers of a deployment that fails on the third query and stays
    failed, as its terminal state admits no further transition. *)
Definition failure_response : DeployStatus :=
  {| status := "FAILURE";
     deploy_payload := [("errorMessage", "Configuration push failed")] |}.

Definition submitted_response : DeployStatus :=
  {| status := "SUBMITTED"; deploy_payload := [] |}.

Definition failed_on_third_poll (n : nat) : DeployStatus :=
  match n with
  | 0 | 1 => submitted_response
  | _ => failure_response
  end.

Lemma deploy_loop_after_failure (fuel calls : nat) (log : list DeployEvent) :
  2 <= calls ->
  deploy_loop fuel failed_on_third_poll calls log
  = {| queries := calls + fuel;
       events := (log ++ repeat (DeploymentFailed failure_response) fuel)%list;
       finished := false |}.
Proof.
  revert calls log; induction fuel as [|fuel IH]; intros calls log Hc.
  - simpl. now rewrite Nat.add_0_r, app_nil_r.
  - simpl. destruct calls as [|[|calls]]; [lia | lia |]. simpl.
    rewrite IH by lia. rewrite <- app_assoc. simpl.
    f_equal. lia.
Qed.

(* ================================================================== *)
(** * Claims *)

(** C1 (Deployment Tracker, FAILURE): on the status sequence
    SUBMITTED, SUBMITTED, FAILURE, FAILURE, ... the loop of [deployTemplate]
    reports the failure payload and then keeps querying: with any amount of
    fuel every iteration makes a status query, the loop never leaves, and the
    failure is reported once per query from the third on.  The FAILURE
    branch has no [break], unlike the SUCCESS branch. *)
Theorem deployTemplate_failure_keeps_polling (fuel : nat) :
  deployTemplate fuel failed_on_third_poll
  = {| queries := fuel;
       events := repeat (DeploymentFailed failure_response) (fuel - 2);
       finished := false |}.
Proof.
  destruct fuel as [|[|fuel]]; [reflexivity | reflexivity |].
  unfold deployTemplate. simpl.
  rewrite deploy_loop_after_failure by lia. simpl.
  now rewrite Nat.sub_0_r.
Qed.

(** C2 (Config Validator): the list returned by [validate_snmp_config] is
    exactly the stripped selected lines (containing [snmp-server host])
    that miss the expected host or the expected community substring, in file
    order; in particular every such line appears, stripped, in the result. *)
Theorem validate_snmp_config_classification
  (host community : string) (running_config : list string) :
  validate_snmp_config host community running_config
  = map strip
      (filter (fun line => py_in "snmp-server host" (strip line)
                           && negb (py_in host line && py_in community line))
         running_config)
  /\ (forall line, In line running_config ->
        py_in "snmp-server host" (strip line) = true ->
        py_in host line && py_in community line = false ->
        In (strip line) (validate_snmp_config host community running_config)).
Proof.
  assert (Heq : validate_snmp_config host community running_config
    = map strip (filter (selected_noncompliant host community) running_config)).
  { unfold validate_snmp_config. now rewrite validate_loop_spec. }
  split; [exact Heq|].
  intros line Hin Hsel Hbad. rewrite Heq. apply in_map. apply filter_In.
  split; [exact Hin|]. unfold selected_noncompliant. now rewrite Hsel, Hbad.
Qed.

Lemma validate_snmp_config_classification_witness :
  let running_config :=
    ["snmp-server host 10.0.0.1 community wrongcomm" ++ newline;
     "snmp-server host 10.0.0.2 community public" ++ newline] in
  In ("snmp-server host 10.0.0.1 community wrongcomm" ++ newline) running_config
  /\ py_in "snmp-server host"
       (strip ("snmp-server host 10.0.0.1 community wrongcomm" ++ newline)) = true
  /\ py_in "10.0.0.2" ("snmp-server host 10.0.0.1 community wrongcomm" ++ newline)
     && py_in "public" ("snmp-server host 10.0.0.1 community wrongcomm" ++ newline)
     = false
  /\ In (strip ("snmp-server host 10.0.0.1 community wrongcomm" ++ newline))
        (validate_snmp_config "10.0.0.2" "public" running_config).
Proof.
  intros running_config.
  assert (Hin : In ("snmp-server host 10.0.0.1 community wrongcomm" ++ newline)
                  running_config) by (left; reflexivity).
  assert (Hsel : py_in "snmp-server host"
       (strip ("snmp-server host 10.0.0.1 community wrongcomm" ++ newline)) = true)
    by (vm_compute; reflexivity).
  assert (Hbad : py_in "10.0.0.2"
                   ("snmp-server host 10.0.0.1 community wrongcomm" ++ newline)
                 && py_in "public"
                   ("snmp-server host 10.0.0.1 community wrongcomm" ++ newline)
                 = false) by (vm_compute; reflexivity).
  split; [exact Hin|]. split; [exact Hsel|]. split; [exact Hbad|].
  exact (proj2 (validate_snmp_config_classification "10.0.0.2" "public"
                  running_config) _ Hin Hsel Hbad).
Defined.

(** C3 (Template Synthesizer, guard blocks): on the device-record mapping
    built by [run] (records start without findings and receive
    ["bad_config"] only when [validate_snmp_config] returns a non-empty
    list), a device's address opens a guard block iff it is a target device
    whose validation found at least one non-compliant line; in particular a
    device whose findings list is empty never opens a guard block. *)
Theorem guard_block_iff_findings
  (LOCATION_FILTER : list string) (location_of : string -> string)
  (devices : list Device) (validate : string -> list string) (d : string) :
  let target_devices := build_target_devices LOCATION_FILTER location_of devices in
  let updated := fst (validation_loop validate target_devices) in
  (In (guard_open d) (template_lines updated)
   <-> In d (map fst target_devices) /\ validate d <> [])
  /\ (validate d = [] -> ~ In (guard_open d) (template_lines updated)).
Proof.
  intros target_devices updated.
  destruct (build_target_devices_spec LOCATION_FILTER location_of devices []
              (NoDup_nil _) (fun p H => False_ind _ H))
    as [_ [Hnone _]].
  fold (build_target_devices LOCATION_FILTER location_of devices) in Hnone.
  fold target_devices in Hnone.
  assert (Hiff : In (guard_open d) (template_lines updated)
                 <-> In d (map fst target_devices) /\ validate d <> []).
  { unfold updated. rewrite validation_loop_spec. simpl.
    rewrite in_template_lines. split.
    - intros [r [Hin Hr]].
      apply in_map_iff in Hin as [[device r0] [Hp Hin0]].
      unfold record_after_validation in Hp. injection Hp as -> Hr'.
      split; [apply in_map_iff; now exists (d, r0)|].
      intros Hv. rewrite Hv in Hr'. subst r.
      apply Hr. exact (Hnone (d, r0) Hin0).
    - intros [Hin Hv].
      apply in_map_iff in Hin as [[device r0] [Hd Hin0]]. simpl in Hd.
      subst device.
      exists (snd (record_after_validation validate (d, r0))). split.
      + apply in_map_iff. exists (d, r0). split; [reflexivity | exact Hin0].
      + simpl. destruct (validate d); [contradiction | discriminate]. }
  split; [exact Hiff|].
  intros Hv Hin. apply Hiff in Hin as [_ Hne]. contradiction.
Qed.

Definition compliant_switch : Device :=
  {| dev_id := "uuid-2"; managementIpAddress := "10.0.0.2";
     family := "Switches and Hubs"; series := "Cisco Catalyst 9300 Series Switches" |}.

Definition scenario_findings (device_ip : string) : list string :=
  if String.eqb device_ip "10.0.0.1"
  then ["snmp-server host 10.0.0.1 community wrongcomm"] else [].

Lemma guard_block_iff_findings_witness :
  let noncompliant_switch :=
    {| dev_id := "uuid-1"; managementIpAddress := "10.0.0.1";
       family := "Switches and Hubs";
       series := "Cisco Catalyst 9300 Series Switches" |} in
  let target_devices := build_target_devices [] (fun _ => "Global/Site")
                          [noncompliant_switch; compliant_switch] in
  scenario_findings "10.0.0.2" = []
  /\ ~ In (guard_open "10.0.0.2")
         (template_lines (fst (validation_loop scenario_findings target_devices))).
Proof.
  intros noncompliant_switch target_devices.
  assert (Hv : scenario_findings "10.0.0.2" = []) by reflexivity.
  split; [exact Hv|].
  exact (proj2 (guard_block_iff_findings [] (fun _ => "Global/Site")
                  [noncompliant_switch; compliant_switch] scenario_findings
                  "10.0.0.2") Hv).
Defined.

Lemma template_lines_shape (device_list : DeviceList) (line : string) :
  In line (template_lines device_list) ->
  line = "" \/ str_prefix "#" line = true \/ str_prefix "no " line = true.
Proof.
  induction device_list as [|[device r] rest IH]; simpl; [intros []|].
  rewrite in_app_iff. intros [H | H]; [|now apply IH].
  unfold device_block in H. destruct (bad_config r) as [items|]; [|destruct H].
  destruct H as [<- | H]; [right; left; reflexivity|].
  apply in_app_iff in H as [H | [<- | [<- | []]]].
  - apply in_map_iff in H as [x [<- _]]. right; right; reflexivity.
  - right; left; reflexivity.
  - left; reflexivity.
Qed.

(** C4 (Template Synthesizer, directive): for a corrective directive that
    is a configuration line (non-empty, not a Velocity [#] directive and not
    a [no ...] removal), and whatever the device mapping, the template is the
    newline-join of the generated lines followed by the directive; exactly
    one of its lines is the directive, and that line is the final non-empty
    line. *)
Theorem directive_once_final_line (NEW_CONFIG : string) (device_list : DeviceList) :
  NEW_CONFIG <> "" ->
  str_prefix "#" NEW_CONFIG = false ->
  str_prefix "no " NEW_CONFIG = false ->
  generateTemplatePayload NEW_CONFIG device_list
  = py_join newline (template_payload_lines NEW_CONFIG device_list)
  /\ count_occ string_dec (template_payload_lines NEW_CONFIG device_list)
       NEW_CONFIG = 1
  /\ last_nonempty (template_payload_lines NEW_CONFIG device_list)
     = Some NEW_CONFIG.
Proof.
  intros Hne Hhash Hno.
  assert (Hnotin : ~ In NEW_CONFIG (template_lines device_list)).
  { intros Hin. destruct (template_lines_shape device_list NEW_CONFIG Hin)
      as [H | [H | H]]; congruence. }
  split; [reflexivity|]. unfold template_payload_lines. split.
  - rewrite count_occ_app. simpl.
    apply (count_occ_not_In string_dec) in Hnotin. rewrite Hnotin.
    destruct (string_dec NEW_CONFIG NEW_CONFIG); [reflexivity | contradiction].
  - now apply last_nonempty_snoc.
Qed.

Lemma directive_once_final_line_witness :
  let device_list :=
    [("10.0.0.1", {| id := "uuid-1";
                     bad_config := Some ["snmp-server host 10.0.0.1 community wrongcomm";
                                         "snmp-server host 10.0.0.9 community public"] |});
     ("10.0.0.2", {| id := "uuid-2"; bad_config := None |});
     ("10.0.0.3", {| id := "uuid-3";
                     bad_config := Some ["snmp-server host 10.0.0.3 community private"] |})] in
  let directive := "snmp-server host 10.0.0.2 community public" in
  directive <> "" /\ str_prefix "#" directive = false
  /\ str_prefix "no " directive = false
  /\ count_occ string_dec (template_payload_lines directive device_list) directive = 1
  /\ last_nonempty (template_payload_lines directive device_list) = Some directive.
Proof.
  intros device_list directive.
  assert (Hne : directive <> "") by discriminate.
  assert (Hhash : str_prefix "#" directive = false) by reflexivity.
  assert (Hno : str_prefix "no " directive = false) by reflexivity.
  do 3 (split; [assumption|]).
  exact (proj2 (directive_once_final_line directive device_list Hne Hhash Hno)).
Defined.

(** C5 (Task Poller): if the [k]-th status answer is the first one whose
    [endTime] is set, [checkTaskStatus] returns exactly that answer after
    exactly [k + 1] queries, however much fuel the loop is given beyond. *)
Theorem checkTaskStatus_returns_first_completed
  (get_task_by_id : nat -> TaskStatus) (k fuel : nat) :
  endTime (get_task_by_id k) <> None ->
  (forall j, j < k -> endTime (get_task_by_id j) = None) ->
  k < fuel ->
  checkTaskStatus fuel get_task_by_id = (Some (get_task_by_id k), S k).
Proof.
  intros Hk Hbefore Hfuel. unfold checkTaskStatus.
  apply (checkTaskStatus_loop_first get_task_by_id k Hk Hbefore); lia.
Qed.

Definition completes_on_third_poll (n : nat) : TaskStatus :=
  match n with
  | 0 | 1 => {| progress := "In Progress"; endTime := None; task_payload := [] |}
  | _ => {| progress := "Export complete"; endTime := Some 1700000000000%positive;
            task_payload := [("additionalStatusURL", "/api/v1/file/abc")] |}
  end.

Lemma checkTaskStatus_returns_first_completed_witness :
  endTime (completes_on_third_poll 2) <> None
  /\ (forall j, j < 2 -> endTime (completes_on_third_poll j) = None)
  /\ checkTaskStatus 10 completes_on_third_poll = (Some (completes_on_third_poll 2), 3).
Proof.
  assert (Hk : endTime (completes_on_third_poll 2) <> None) by discriminate.
  assert (Hbefore : forall j, j < 2 -> endTime (completes_on_third_poll j) = None).
  { intros [|[|j]] Hj; [reflexivity | reflexivity | lia]. }
  split; [exact Hk|]. split; [exact Hbefore|].
  apply (checkTaskStatus_returns_first_completed completes_on_third_poll 2 10
           Hk Hbefore). lia.
Defined.

(** C6 (Template Synthesizer, determinism): two device mappings with the
    same addresses in the same order and the same findings give
    byte-identical template texts, whatever their other record fields. *)
Theorem generateTemplatePayload_deterministic
  (NEW_CONFIG : string) (dl1 dl2 : DeviceList) :
  map (fun p => (fst p, bad_config (snd p))) dl1
  = map (fun p => (fst p, bad_config (snd p))) dl2 ->
  generateTemplatePayload NEW_CONFIG dl1 = generateTemplatePayload NEW_CONFIG dl2.
Proof.
  intros H. unfold generateTemplatePayload, template_payload_lines.
  now rewrite (template_lines_findings dl1 dl2 H).
Qed.

Lemma generateTemplatePayload_deterministic_witness :
  let dl1 := [("10.0.0.1", {| id := "uuid-1"; bad_config := Some ["snmp-server host 1.1.1.1"] |});
              ("10.0.0.2", {| id := "uuid-2"; bad_config := None |})] in
  let dl2 := [("10.0.0.1", {| id := "uuid-1"; bad_config := Some ["snmp-server host 1.1.1.1"] |});
              ("10.0.0.2", {| id := "uuid-2"; bad_config := None |})] in
  map (fun p => (fst p, bad_config (snd p))) dl1
  = map (fun p => (fst p, bad_config (snd p))) dl2
  /\ generateTemplatePayload "snmp-server host 10.0.0.2 community public" dl1
     = generateTemplatePayload "snmp-server host 10.0.0.2 community public" dl2.
Proof.
  intros dl1 dl2.
  assert (H : map (fun p => (fst p, bad_config (snd p))) dl1
              = map (fun p => (fst p, bad_config (snd p))) dl2) by reflexivity.
  split; [exact H|].
  exact (generateTemplatePayload_deterministic _ dl1 dl2 H).
Defined.

(** C7, as stated (refuted): with two archives carrying the marker in the
    directory, [unzipConfigFile] raises nothing and silently picks the last
    one listed. *)
Lemma unzip_two_archives_counterexample :
  let directory := ["Export_Configs_1.zip"; "Export_Configs_2.zip"] in
  length (filter (py_in "Export_Configs") directory) = 2
  /\ unzip_target directory = Some "Export_Configs_2.zip".
Proof. split; reflexivity. Qed.

(** C7 (amended): [unzipConfigFile] extracts the last file, in directory
    listing order, whose name contains [Export_Configs]; it fails (the local
    [target_file] is unbound, an [UnboundLocalError]) exactly when no file
    matches, and with several matches it takes the last one without error. *)
Theorem unzip_target_last_match (directory : list string) :
  unzip_target directory
  = match rev (filter (py_in "Export_Configs") directory) with
    | [] => None
    | f :: _ => Some f
    end
  /\ (unzip_target directory = None
      <-> filter (py_in "Export_Configs") directory = []).
Proof.
  unfold unzip_target. rewrite scan_directory_last. split; [reflexivity|].
  destruct (filter (py_in "Export_Configs") directory) as [|f rest] eqn:E.
  - simpl. tauto.
  - simpl. destruct (rev rest ++ [f])%list as [|g l] eqn:Er.
    + exfalso. apply (f_equal (@length string)) in Er.
      rewrite length_app in Er. simpl in Er. lia.
    + split; discriminate.
Qed.

(** C8 (archive passphrase): whatever values [secrets.choice] draws (each
    below the alphabet's length), [ARCHIVE_SECRET] is 17 characters long,
    its first 16 characters are ASCII letters or digits and its last one is
    the non-alphanumeric [!]. *)
Theorem ARCHIVE_SECRET_shape (randbelow : nat -> nat) :
  (forall i, randbelow i < String.length (ascii_letters ++ digits)) ->
  exists secret, ARCHIVE_SECRET randbelow = Some secret
    /\ String.length secret = 17
    /\ (forall n, n < 16 ->
          exists c, String.get n secret = Some c /\ is_alnum c = true)
    /\ String.get 16 secret = Some "!"%char
    /\ is_alnum "!"%char = false.
Proof.
  intros Hr.
  destruct (join_choices_alnum randbelow (seq 0 16) Hr) as [s [Hs [Hl Hget]]].
  rewrite length_seq in Hl.
  unfold ARCHIVE_SECRET. rewrite Hs. exists (s ++ "!"). split; [reflexivity|].
  split; [rewrite string_length_append, Hl; reflexivity|].
  split; [|split; [|reflexivity]].
  - intros n Hn. rewrite get_append_left by lia. apply Hget; lia.
  - rewrite <- Hl. apply get_append_right.
Qed.

Lemma ARCHIVE_SECRET_shape_witness :
  (forall i, (fun i => i mod 62) i < String.length (ascii_letters ++ digits))
  /\ exists secret, ARCHIVE_SECRET (fun i => i mod 62) = Some secret
       /\ String.length secret = 17
       /\ (forall n, n < 16 ->
             exists c, String.get n secret = Some c /\ is_alnum c = true)
       /\ String.get 16 secret = Some "!"%char
       /\ is_alnum "!"%char = false.
Proof.
  assert (Hr : forall i, (fun i => i mod 62) i
                         < String.length (ascii_letters ++ digits)).
  { intros i. change (i mod 62 < 62). apply Nat.mod_upper_bound. discriminate. }
  split; [exact Hr|].
  exact (ARCHIVE_SECRET_shape (fun i => i mod 62) Hr).
Defined.

(** C9 (no findings): when no device record carries a [bad_config] entry,
    no guard block is emitted and the template text is exactly [NEW_CONFIG]. *)
Theorem generateTemplatePayload_no_findings
  (NEW_CONFIG : string) (device_list : DeviceList) :
  (forall p, In p device_list -> bad_config (snd p) = None) ->
  generateTemplatePayload NEW_CONFIG device_list = NEW_CONFIG.
Proof.
  intros H. unfold generateTemplatePayload, template_payload_lines.
  apply py_join_app_single. now apply template_lines_none.
Qed.

Lemma generateTemplatePayload_no_findings_witness :
  let device_list := [("10.0.0.1", {| id := "uuid-1"; bad_config := None |});
                      ("10.0.0.2", {| id := "uuid-2"; bad_config := None |})] in
  (forall p, In p device_list -> bad_config (snd p) = None)
  /\ generateTemplatePayload "snmp-server host 10.0.0.2 community public" device_list
     = "snmp-server host 10.0.0.2 community public".
Proof.
  intros device_list.
  assert (H : forall p, In p device_list -> bad_config (snd p) = None).
  { intros p [<- | [<- | []]]; reflexivity. }
  split; [exact H|].
  exact (generateTemplatePayload_no_findings _ device_list H).
Defined.

(** C10 (deployment targets): [deployable_devices] has one entry per
    target device, in order, whatever the validation results: each entry is
    bound by the device's management address as [MANAGED_DEVICE_IP] with
    the parameter map [{"device_ip": address}]; the addresses are pairwise
    distinct, and every enumerated device kept by the location filter has
    its entry. *)
Theorem deployable_devices_all_targets
  (LOCATION_FILTER : list string) (location_of : string -> string)
  (devices : list Device) (validate : string -> list string) :
  let target_devices := build_target_devices LOCATION_FILTER location_of devices in
  let deployable_devices := snd (validation_loop validate target_devices) in
  deployable_devices = map (fun p => deploy_target (fst p)) target_devices
  /\ NoDup (map t_id deployable_devices)
  /\ (forall t, In t deployable_devices ->
        t_type t = "MANAGED_DEVICE_IP" /\ t_params t = [("device_ip", t_id t)])
  /\ (forall device, In device devices ->
        location_kept LOCATION_FILTER location_of device ->
        In (deploy_target (managementIpAddress device)) deployable_devices).
Proof.
  intros target_devices deployable_devices.
  destruct (build_target_devices_spec LOCATION_FILTER location_of devices []
              (NoDup_nil _) (fun p H => False_ind _ H))
    as [Hnd [_ [_ Hkept]]].
  assert (Hdep : deployable_devices
                 = map (fun p => deploy_target (fst p)) target_devices).
  { unfold deployable_devices. now rewrite validation_loop_spec. }
  split; [exact Hdep|]. rewrite Hdep. split; [|split].
  - rewrite map_map. simpl. exact Hnd.
  - intros t Ht. apply in_map_iff in Ht as [p [<- _]]. split; reflexivity.
  - intros device Hin Hk.
    pose proof (Hkept device Hin Hk) as Hd.
    apply in_map_iff in Hd as [p [Hp Hinp]].
    apply in_map_iff. exists p. now rewrite Hp.
Qed.

Definition access_switch : Device :=
  {| dev_id := "uuid-1"; managementIpAddress := "10.0.0.1";
     family := "Switches and Hubs"; series := "Cisco Catalyst 9300 Series Switches" |}.

Lemma deployable_devices_all_targets_witness :
  In access_switch [access_switch]
  /\ location_kept [] (fun _ => "Global/Site") access_switch
  /\ In (deploy_target "10.0.0.1")
        (snd (validation_loop (fun _ => [])
                (build_target_devices [] (fun _ => "Global/Site") [access_switch]))).
Proof.
  assert (Hin : In access_switch [access_switch]) by (left; reflexivity).
  assert (Hk : location_kept [] (fun _ => "Global/Site") access_switch)
    by (left; reflexivity).
  split; [exact Hin|]. split; [exact Hk|].
  exact (proj2 (proj2 (proj2 (deployable_devices_all_targets [] (fun _ => "Global/Site")
           [access_switch] (fun _ => [])))) access_switch Hin Hk).
Defined.

(* ================================================================== *)
(** * Further properties of the script *)

(** ** Splitting *)

Fixpoint char_count (c : ascii) (s : string) : nat :=
  match s with
  | EmptyString => 0
  | String c' s' => (if Ascii.eqb c' c then 1 else 0) + char_count c s'
  end.

Lemma py_split_length (sep : ascii) (s : string) :
  length (py_split sep s) = S (char_count sep s).
Proof.
  induction s as [|c s IH]; simpl; [reflexivity|].
  destruct (Ascii.eqb c sep); simpl.
  - now rewrite IH.
  - destruct (py_split sep s) as [|p ps]; simpl in *; [discriminate|]. exact IH.
Qed.

Lemma py_split_no_sep (sep : ascii) (s : string) :
  has_char sep s = false -> py_split sep s = [s].
Proof.
  induction s as [|c s IH]; simpl; intros H; [reflexivity|].
  apply orb_false_iff in H as [Hc Hs]. rewrite Hc, (IH Hs). reflexivity.
Qed.

Lemma py_split_app_sep (sep : ascii) (a rest : string) :
  has_char sep a = false ->
  py_split sep (a ++ String sep rest) = a :: py_split sep rest.
Proof.
  induction a as [|c a IH]; simpl; intros H.
  - now rewrite Ascii.eqb_refl.
  - apply orb_false_iff in H as [Hc Ha]. rewrite Hc, (IH Ha). reflexivity.
Qed.

Lemma py_split_suffix (sep : ascii) (p s : string) :
  exists x pre, py_split sep (p ++ String sep s) = (x :: pre ++ py_split sep s)%list.
Proof.
  induction p as [|c p IH]; simpl.
  - rewrite Ascii.eqb_refl. now exists EmptyString, [].
  - destruct IH as [x [pre Hx]]. rewrite Hx.
    destruct (Ascii.eqb c sep).
    + now exists EmptyString, (x :: pre).
    + now exists (String c x), pre.
Qed.

Lemma last_cons_app {A : Type} (x : A) (pre l : list A) (d : A) :
  l <> [] -> last (x :: pre ++ l)%list d = last l d.
Proof.
  intros Hl. revert x; induction pre as [|y pre IH]; intros x.
  - simpl. destruct l; [contradiction | reflexivity].
  - transitivity (last (y :: pre ++ l)%list d); [reflexivity | apply IH].
Qed.

Lemma py_split_not_nil (sep : ascii) (s : string) : py_split sep s <> [].
Proof.
  intros H. apply (f_equal (@length string)) in H.
  rewrite py_split_length in H. discriminate.
Qed.

(** ** Last match of a scan *)

Lemma string_append_assoc (a b c : string) : (a ++ b) ++ c = a ++ (b ++ c).
Proof. induction a as [|x a IH]; simpl; [reflexivity | now rewrite IH]. Qed.

Lemma last_opt_cons {A : Type} (x : A) (l : list A) :
  last_opt (x :: l) = match last_opt l with Some y => Some y | None => Some x end.
Proof. unfold last_opt. simpl. destruct (rev l); reflexivity. Qed.

Lemma last_opt_none {A : Type} (l : list A) : last_opt l = None <-> l = [].
Proof.
  unfold last_opt. split.
  - destruct (rev l) eqn:E; [|discriminate]. intros _.
    apply (f_equal (@rev A)) in E. now rewrite rev_involutive in E.
  - now intros ->.
Qed.

Lemma find_running_config_last (path : string) (files : list string)
  (running_config : option string) :
  find_running_config path files running_config
  = match last_opt (filter (fun f => py_endswith f "RUNNINGCONFIG.cfg") files) with
    | Some f => Some (path ++ f)
    | None => running_config
    end.
Proof.
  revert running_config; induction files as [|file rest IH]; intros rc; simpl.
  - reflexivity.
  - rewrite IH. destruct (py_endswith file "RUNNINGCONFIG.cfg"); simpl.
    + rewrite last_opt_cons. now destruct (last_opt _).
    + reflexivity.
Qed.

Lemma find_template_id_last (TEMPLATE_NAME : string) (templates : list Template)
  (template_id : option string) :
  find_template_id TEMPLATE_NAME templates template_id
  = match last_opt (filter (fun t => String.eqb (tpl_name t) TEMPLATE_NAME)
                      templates) with
    | Some t => Some (tpl_id t)
    | None => template_id
    end.
Proof.
  revert template_id; induction templates as [|t rest IH]; intros tid; simpl.
  - reflexivity.
  - rewrite IH. destruct (String.eqb (tpl_name t) TEMPLATE_NAME); simpl.
    + rewrite last_opt_cons. now destruct (last_opt _).
    + reflexivity.
Qed.

(** X1 (downloadFile): for a status URL [/a/b/c/id] whose segments hold no
    slash the downloaded file id is the fifth split segment [id]; the lookup
    raises [IndexError] exactly when the location holds fewer than four
    slashes. *)
Theorem downloadFile_file_id_segment (a b c file_id : string) :
  has_char "/" a = false -> has_char "/" b = false ->
  has_char "/" c = false -> has_char "/" file_id = false ->
  downloadFile_file_id ("/" ++ a ++ "/" ++ b ++ "/" ++ c ++ "/" ++ file_id)
  = Some file_id
  /\ (forall file_location, downloadFile_file_id file_location = None
        <-> char_count "/" file_location < 4).
Proof.
  intros Ha Hb Hc Hf. split.
  - unfold downloadFile_file_id. simpl.
    rewrite (py_split_app_sep _ a _ Ha), (py_split_app_sep _ b _ Hb),
      (py_split_app_sep _ c _ Hc), (py_split_no_sep _ _ Hf).
    reflexivity.
  - intros file_location. unfold downloadFile_file_id.
    rewrite nth_error_None, py_split_length. lia.
Qed.

Lemma downloadFile_file_id_segment_witness :
  has_char "/" "api" = false /\ has_char "/" "v1" = false
  /\ has_char "/" "file" = false /\ has_char "/" "9f2c-11" = false
  /\ downloadFile_file_id "/api/v1/file/9f2c-11" = Some "9f2c-11".
Proof.
  assert (Ha : has_char "/" "api" = false) by reflexivity.
  assert (Hb : has_char "/" "v1" = false) by reflexivity.
  assert (Hc : has_char "/" "file" = false) by reflexivity.
  assert (Hf : has_char "/" "9f2c-11" = false) by reflexivity.
  do 4 (split; [assumption|]).
  exact (proj1 (downloadFile_file_id_segment "api" "v1" "file" "9f2c-11"
                  Ha Hb Hc Hf)).
Defined.

(** X2 (deployTemplate, deployment id): the id polled is the text after the
    last colon of [deploymentId], stripped of surrounding whitespace; an id
    without any colon is used whole, stripped. *)
Theorem deploy_id_after_last_colon (prefix s : string) :
  has_char ":" s = false ->
  deploy_id_of (prefix ++ ":" ++ s) = strip s /\ deploy_id_of s = strip s.
Proof.
  intros Hs. unfold deploy_id_of.
  assert (Hsplit : py_split ":" s = [s]) by now apply py_split_no_sep.
  split.
  - destruct (py_split_suffix ":" prefix s) as [x [pre Hx]].
    simpl. rewrite Hx, last_cons_app by (rewrite Hsplit; discriminate).
    now rewrite Hsplit.
  - now rewrite Hsplit.
Qed.

Lemma deploy_id_after_last_colon_witness :
  has_char ":" " 7d1e-42 " = false
  /\ deploy_id_of ("Deployment of Template" ++ ":" ++ " 7d1e-42 ") = "7d1e-42".
Proof.
  assert (Hs : has_char ":" " 7d1e-42 " = false) by reflexivity.
  split; [exact Hs|].
  rewrite (proj1 (deploy_id_after_last_colon "Deployment of Template" _ Hs)).
  vm_compute. reflexivity.
Defined.

(** X3 (validate_snmp_config, file choice): the configuration read for a
    device is [./configfiles/<ip>/] followed by the last file of the folder
    listing whose name ends in [RUNNINGCONFIG.cfg]; with no such file the
    read fails (unbound [running_config]). *)
Theorem running_config_path_last (device_ip : string) (files : list string) :
  running_config_path device_ip files
  = option_map (fun f => "./configfiles/" ++ device_ip ++ "/" ++ f)
      (last_opt (filter (fun f => py_endswith f "RUNNINGCONFIG.cfg") files))
  /\ (running_config_path device_ip files = None
      <-> filter (fun f => py_endswith f "RUNNINGCONFIG.cfg") files = []).
Proof.
  unfold running_config_path. rewrite find_running_config_last.
  rewrite <- last_opt_none.
  destruct (last_opt _) as [f|]; simpl.
  - split; [now rewrite !string_append_assoc | split; discriminate].
  - split; [reflexivity | tauto].
Qed.

(** X4 (createNewTemplate): the operator is prompted only when template
    creation raised [ApiError]; the run stops (exit 1) exactly when creation
    failed and the operator declined; otherwise the committed template id is
    the id of the last template of the project named [TEMPLATE_NAME], and
    with no such template the commit step fails on an unbound id. *)
Theorem createNewTemplate_outcome (TEMPLATE_NAME : string) (create_ok confirm_answer : bool)
  (templates : list Template) :
  let run := createNewTemplate TEMPLATE_NAME create_ok confirm_answer templates in
  let named := filter (fun t => String.eqb (tpl_name t) TEMPLATE_NAME) templates in
  prompted run = negb create_ok
  /\ (outcome run = CreateAborted <-> create_ok = false /\ confirm_answer = false)
  /\ (forall template_id, outcome run = CreateCommitted template_id
        <-> (create_ok = true \/ confirm_answer = true)
            /\ option_map tpl_id (last_opt named) = Some template_id)
  /\ (outcome run = CreateUnboundId
        <-> (create_ok = true \/ confirm_answer = true) /\ named = []).
Proof.
  intros run named. unfold run, createNewTemplate.
  rewrite find_template_id_last. fold named.
  rewrite <- last_opt_none.
  destruct create_ok, confirm_answer; simpl;
    (destruct (last_opt named) as [t|]; simpl);
    repeat split; intros; try discriminate; try tauto;
    repeat match goal with
           | H : _ /\ _ |- _ => destruct H
           | H : _ \/ _ |- _ => destruct H
           | H : CreateCommitted _ = CreateCommitted _ |- _ => injection H as H
           | H : Some _ = Some _ |- _ => injection H as H
           end; subst; auto; try discriminate.
Qed.

Lemma dict_set_length {V : Type} (k : string) (v : V) (d : list (string * V)) :
  length (dict_set k v d) <= S (length d).
Proof.
  induction d as [|[k' v'] rest IH]; simpl; [lia|].
  destruct (String.eqb k k'); simpl; lia.
Qed.

Lemma build_target_devices_length LOCATION_FILTER location_of devices :
  forall acc,
  length (fold_left (add_target LOCATION_FILTER location_of) devices acc)
  <= length acc + length devices.
Proof.
  induction devices as [|device rest IH]; intros acc; simpl; [lia|].
  specialize (IH (add_target LOCATION_FILTER location_of acc device)).
  assert (length (add_target LOCATION_FILTER location_of acc device)
          <= S (length acc)).
  { unfold add_target. destruct (_ && _); [lia | apply dict_set_length]. }
  lia.
Qed.

(** X5 (run, device lists): the device-type list sent with the template has
    one entry per device returned by the enumeration, while the device ids
    sent to the configuration export (one per target address) are never
    more: devices dropped by the location filter or sharing an address still
    contribute a device type. *)
Theorem device_types_cover_export
  (LOCATION_FILTER : list string) (location_of : string -> string)
  (devices : list Device) :
  length (device_types devices) = length devices
  /\ length (export_device_ids
               (build_target_devices LOCATION_FILTER location_of devices))
     <= length (device_types devices).
Proof.
  unfold device_types, export_device_ids, build_target_devices.
  rewrite !length_map. split; [reflexivity|].
  pose proof (build_target_devices_length LOCATION_FILTER location_of devices [])
    as H. simpl in H. exact H.
Qed.

Lemma dict_get_set_eq {V : Type} (k : string) (v : V) (d : list (string * V)) :
  dict_get k (dict_set k v d) = Some v.
Proof.
  induction d as [|[k' v'] rest IH]; simpl; [now rewrite String.eqb_refl|].
  destruct (String.eqb_spec k k') as [-> | Hne]; simpl.
  - now rewrite String.eqb_refl.
  - apply String.eqb_neq in Hne. now rewrite Hne.
Qed.

Lemma dict_get_set_neq {V : Type} (k k' : string) (v : V) (d : list (string * V)) :
  k' <> k -> dict_get k' (dict_set k v d) = dict_get k' d.
Proof.
  intros Hne. induction d as [|[k0 v0] rest IH]; simpl.
  - apply String.eqb_neq in Hne. now rewrite Hne.
  - destruct (String.eqb_spec k k0) as [-> | Hne0]; simpl.
    + apply String.eqb_neq in Hne. now rewrite Hne.
    + now rewrite IH.
Qed.

Lemma dict_get_in_keys {V : Type} (k : string) (d : list (string * V)) :
  In k (map fst d) <-> dict_get k d <> None.
Proof.
  induction d as [|[k' v] rest IH]; simpl.
  - tauto.
  - destruct (String.eqb_spec k k') as [-> | Hne].
    + split; [discriminate | now left].
    + rewrite <- IH. intuition congruence.
Qed.

Lemma add_target_keep LOCATION_FILTER location_of target_devices device :
  add_target LOCATION_FILTER location_of target_devices device
  = if location_keep LOCATION_FILTER location_of device
    then dict_set (managementIpAddress device)
           {| id := dev_id device; bad_config := None |} target_devices
    else target_devices.
Proof. unfold add_target, location_keep. now destruct (_ && _). Qed.

Lemma fold_add_target_get LOCATION_FILTER location_of devices k :
  forall acc,
  dict_get k (fold_left (add_target LOCATION_FILTER location_of) devices acc)
  = match last_opt (filter (fun device =>
            location_keep LOCATION_FILTER location_of device
            && String.eqb (managementIpAddress device) k) devices) with
    | Some device => Some {| id := dev_id device; bad_config := None |}
    | None => dict_get k acc
    end.
Proof.
  induction devices as [|device rest IH]; intros acc; simpl; [reflexivity|].
  rewrite IH, add_target_keep.
  destruct (location_keep LOCATION_FILTER location_of device) eqn:Hk; simpl.
  - destruct (String.eqb_spec (managementIpAddress device) k) as [<- | Hne].
    + rewrite last_opt_cons. destruct (last_opt _); [reflexivity|].
      apply dict_get_set_eq.
    + destruct (last_opt _); [reflexivity|]. apply dict_get_set_neq. congruence.
  - reflexivity.
Qed.

(** X6 (run, [target_devices] as a dict): the record stored for a
    management address carries the id of the LAST enumerated device with
    that address kept by the location filter (a later duplicate overwrites
    the id), and no findings; an address of no kept device has no record. *)
Theorem target_devices_lookup
  (LOCATION_FILTER : list string) (location_of : string -> string)
  (devices : list Device) (address : string) :
  dict_get address (build_target_devices LOCATION_FILTER location_of devices)
  = option_map (fun device => {| id := dev_id device; bad_config := None |})
      (last_opt (filter (fun device =>
                   location_keep LOCATION_FILTER location_of device
                   && String.eqb (managementIpAddress device) address) devices)).
Proof.
  unfold build_target_devices. rewrite fold_add_target_get.
  now destruct (last_opt _).
Qed.

(** X7 (run, targets): the addresses of [target_devices], hence of the
    configuration export and of the deployment targets, are exactly the
    management addresses of the enumerated devices kept by the location
    filter, each once. *)
Theorem target_devices_keys
  (LOCATION_FILTER : list string) (location_of : string -> string)
  (devices : list Device) :
  let target_devices := build_target_devices LOCATION_FILTER location_of devices in
  NoDup (map fst target_devices)
  /\ forall address, In address (map fst target_devices)
       <-> exists device, In device devices
           /\ location_keep LOCATION_FILTER location_of device = true
           /\ managementIpAddress device = address.
Proof.
  intros target_devices. split.
  - exact (proj1 (build_target_devices_spec LOCATION_FILTER location_of devices []
                    (NoDup_nil _) (fun p H => False_ind _ H))).
  - intros address. rewrite dict_get_in_keys. unfold target_devices.
    rewrite target_devices_lookup.
    destruct (last_opt _) as [d|] eqn:E; simpl.
    + split; [intros _ | intros _; discriminate].
      assert (Hin : In d (filter (fun device =>
                   location_keep LOCATION_FILTER location_of device
                   && String.eqb (managementIpAddress device) address) devices)).
      { unfold last_opt in E. destruct (rev _) eqn:Er; [discriminate|].
        injection E as ->. apply in_rev. rewrite Er. now left. }
      apply filter_In in Hin as [Hin Hb]. apply andb_true_iff in Hb as [Hk Ha].
      exists d. repeat split; auto. now apply String.eqb_eq.
    + apply last_opt_none in E. split; [intros H; now exfalso|].
      intros [d [Hin [Hk Ha]]] _.
      assert (Hf : In d (filter (fun device =>
                   location_keep LOCATION_FILTER location_of device
                   && String.eqb (managementIpAddress device) address) devices)).
      { apply filter_In. split; [exact Hin|]. rewrite Hk, Ha. simpl.
        apply String.eqb_refl. }
      rewrite E in Hf. exact Hf.
Qed.

(** ** Polling loops *)

Definition failure_reports (responses : list DeployStatus) : list DeployEvent :=
  map DeploymentFailed
    (filter (fun r => String.eqb (status r) "FAILURE") responses).

Lemma deploy_loop_until_success (get_status : nat -> DeployStatus) (k : nat) :
  status (get_status k) = "SUCCESS" ->
  (forall j, j < k -> status (get_status j) <> "SUCCESS") ->
  forall fuel calls log, calls <= k -> k - calls < fuel ->
  deploy_loop fuel get_status calls log
  = {| queries := S k;
       events := (log ++ failure_reports (map get_status (seq calls (k - calls)))
                  ++ [DeploymentComplete])%list;
       finished := true |}.
Proof.
  intros Hk Hbefore fuel; induction fuel as [|fuel IH]; intros calls log Hc Hf;
    [lia|].
  simpl. destruct (Nat.eq_dec calls k) as [-> | Hne].
  - rewrite Hk, Nat.sub_diag. simpl. reflexivity.
  - assert (Hns : String.eqb (status (get_status calls)) "SUCCESS" = false).
    { apply String.eqb_neq. apply Hbefore. lia. }
    rewrite Hns. rewrite IH by lia.
    replace (k - calls) with (S (k - S calls)) by lia.
    simpl. unfold failure_reports at 2. simpl.
    destruct (String.eqb (status (get_status calls)) "FAILURE"); simpl;
      [rewrite <- app_assoc|]; reflexivity.
Qed.

(** X8 (deployTemplate, SUCCESS): if the [k]-th status answer is the first
    SUCCESS, the loop stops after exactly [k + 1] queries, having reported
    the payload of every earlier FAILURE answer, in order, and then the
    completion. *)
Theorem deployTemplate_until_success (get_status : nat -> DeployStatus)
  (k fuel : nat) :
  status (get_status k) = "SUCCESS" ->
  (forall j, j < k -> status (get_status j) <> "SUCCESS") ->
  k < fuel ->
  deployTemplate fuel get_status
  = {| queries := S k;
       events := (failure_reports (map get_status (seq 0 k))
                  ++ [DeploymentComplete])%list;
       finished := true |}.
Proof.
  intros Hk Hbefore Hf. unfold deployTemplate.
  rewrite (deploy_loop_until_success get_status k Hk Hbefore) by lia.
  now rewrite Nat.sub_0_r.
Qed.

Definition fails_then_succeeds (n : nat) : DeployStatus :=
  match n with
  | 0 => submitted_response
  | 1 => failure_response
  | _ => {| status := "SUCCESS"; deploy_payload := [] |}
  end.

Lemma deployTemplate_until_success_witness :
  status (fails_then_succeeds 2) = "SUCCESS"
  /\ (forall j, j < 2 -> status (fails_then_succeeds j) <> "SUCCESS")
  /\ deployTemplate 5 fails_then_succeeds
     = {| queries := 3;
          events := [DeploymentFailed failure_response; DeploymentComplete];
          finished := true |}.
Proof.
  assert (Hk : status (fails_then_succeeds 2) = "SUCCESS") by reflexivity.
  assert (Hb : forall j, j < 2 -> status (fails_then_succeeds j) <> "SUCCESS").
  { intros [|[|j]] Hj; [discriminate | discriminate | lia]. }
  split; [exact Hk|]. split; [exact Hb|].
  rewrite (deployTemplate_until_success fails_then_succeeds 2 5 Hk Hb) by lia.
  reflexivity.
Defined.

Lemma deploy_loop_no_success (get_status : nat -> DeployStatus) :
  (forall j, status (get_status j) <> "SUCCESS") ->
  forall fuel calls log,
  queries (deploy_loop fuel get_status calls log) = calls + fuel
  /\ finished (deploy_loop fuel get_status calls log) = false.
Proof.
  intros Hno fuel; induction fuel as [|fuel IH]; intros calls log; simpl.
  - split; [lia | reflexivity].
  - assert (Hns : String.eqb (status (get_status calls)) "SUCCESS" = false)
      by (apply String.eqb_neq; apply Hno).
    rewrite Hns. destruct (IH (S calls) (if String.eqb (status (get_status calls))
                                           "FAILURE"
                                         then (log ++ [DeploymentFailed
                                                 (get_status calls)])%list
                                         else log)) as [Hq Hfin].
    split; [rewrite Hq; lia | exact Hfin].
Qed.

(** X9 (deployTemplate, no SUCCESS): when no status answer is SUCCESS (an
    IN_PROGRESS that never ends, FAILURE, or any other value) the loop never
    finishes: every iteration makes one more query. *)
Theorem deployTemplate_spins_without_success (get_status : nat -> DeployStatus) :
  (forall j, status (get_status j) <> "SUCCESS") ->
  forall fuel, queries (deployTemplate fuel get_status) = fuel
               /\ finished (deployTemplate fuel get_status) = false.
Proof.
  intros Hno fuel. exact (deploy_loop_no_success get_status Hno fuel 0 []).
Qed.

Definition stuck_in_progress (n : nat) : DeployStatus :=
  {| status := "IN_PROGRESS"; deploy_payload := [] |}.

Lemma deployTemplate_spins_without_success_witness :
  (forall j, status (stuck_in_progress j) <> "SUCCESS")
  /\ queries (deployTemplate 7 stuck_in_progress) = 7.
Proof.
  assert (H : forall j, status (stuck_in_progress j) <> "SUCCESS")
    by (intros j; discriminate).
  split; [exact H|].
  exact (proj1 (deployTemplate_spins_without_success stuck_in_progress H 7)).
Defined.

Lemma checkTaskStatus_loop_never (get_task_by_id : nat -> TaskStatus) :
  (forall j, endTime (get_task_by_id j) = None) ->
  forall fuel calls,
  checkTaskStatus_loop fuel get_task_by_id calls = (None, calls + fuel).
Proof.
  intros Hno fuel; induction fuel as [|fuel IH]; intros calls; simpl.
  - now rewrite Nat.add_0_r.
  - unfold endTime_truthy. rewrite Hno, IH. f_equal. lia.
Qed.

(** X10 (checkTaskStatus, no deadline): when no status answer carries an
    [endTime], the poller returns nothing and keeps querying: every iteration
    makes one more query. *)
Theorem checkTaskStatus_spins_without_endTime (get_task_by_id : nat -> TaskStatus) :
  (forall j, endTime (get_task_by_id j) = None) ->
  forall fuel, checkTaskStatus fuel get_task_by_id = (None, fuel).
Proof.
  intros Hno fuel. exact (checkTaskStatus_loop_never get_task_by_id Hno fuel 0).
Qed.

Definition task_never_ends (n : nat) : TaskStatus :=
  {| progress := "In Progress"; endTime := None; task_payload := [] |}.

Lemma checkTaskStatus_spins_without_endTime_witness :
  (forall j, endTime (task_never_ends j) = None)
  /\ checkTaskStatus 4 task_never_ends = (None, 4).
Proof.
  assert (H : forall j, endTime (task_never_ends j) = None)
    by (intros; reflexivity).
  split; [exact H|].
  exact (checkTaskStatus_spins_without_endTime task_never_ends H 4).
Defined.

(** ** Template shape *)

(** X11 (generateTemplatePayload, size): the template has one line for the
    directive plus, for each device record with a [bad_config] list of [n]
    items, [n + 3] lines (guard, [n] removals, [#end], blank separator). *)
Theorem template_line_count (NEW_CONFIG : string) (device_list : DeviceList) :
  length (template_payload_lines NEW_CONFIG device_list)
  = S (list_sum (map (fun p => match bad_config (snd p) with
                               | Some items => length items + 3
                               | None => 0
                               end) device_list)).
Proof.
  unfold template_payload_lines. rewrite length_app. simpl.
  induction device_list as [|[device r] rest IH]; simpl; [reflexivity|].
  rewrite length_app. unfold device_block.
  destruct (bad_config r) as [items|]; simpl.
  - rewrite length_app, length_map. simpl. lia.
  - exact IH.
Qed.

(** X12 (generateTemplatePayload, blocks): for every device record with a
    [bad_config] list, the template holds, as one contiguous run of lines,
    the guard on that device's address, one [no <line>] per finding in
    order, [#end] and a blank separator. *)
Theorem template_block_contiguous (device_list : DeviceList) (device : string)
  (r : DeviceRecord) (items : list string) :
  In (device, r) device_list -> bad_config r = Some items ->
  exists pre post,
    template_lines device_list
    = (pre ++ (guard_open device
               :: map (fun config_item => String.append "no " config_item) items
               ++ ["#end"; ""]) ++ post)%list.
Proof.
  intros Hin Hb. induction device_list as [|[d r'] rest IH]; [destruct Hin|].
  simpl. destruct Hin as [Heq | Hin].
  - injection Heq as -> ->. exists [], (template_lines rest).
    unfold device_block. rewrite Hb. simpl. now rewrite <- app_assoc.
  - destruct (IH Hin) as [pre [post Hpp]].
    exists (device_block d r' ++ pre)%list, post.
    rewrite Hpp. now rewrite <- app_assoc.
Qed.

Lemma template_block_contiguous_witness :
  let device_list :=
    [("10.0.0.2", {| id := "uuid-2"; bad_config := None |});
     ("10.0.0.1", {| id := "uuid-1";
                     bad_config := Some ["snmp-server host 10.0.0.1 community wrongcomm"] |})] in
  In ("10.0.0.1", {| id := "uuid-1";
                     bad_config := Some ["snmp-server host 10.0.0.1 community wrongcomm"] |})
     device_list
  /\ exists pre post,
       template_lines device_list
       = (pre ++ (guard_open "10.0.0.1"
                  :: map (fun config_item => String.append "no " config_item)
                       ["snmp-server host 10.0.0.1 community wrongcomm"]
                  ++ ["#end"; ""]) ++ post)%list.
Proof.
  intros device_list.
  assert (Hin : In ("10.0.0.1", {| id := "uuid-1";
                     bad_config := Some ["snmp-server host 10.0.0.1 community wrongcomm"] |})
                  device_list) by (right; left; reflexivity).
  split; [exact Hin|].
  exact (template_block_contiguous device_list "10.0.0.1" _ _ Hin eq_refl).
Defined.

(** X13 (run then generateTemplatePayload): on the mapping built by [run],
    every target device whose validation returned a non-empty list [R] gets
    the contiguous block guard, [no <line>] for each line of [R] in order,
    [#end], blank; and when every validation returns an empty list the
    template is exactly [NEW_CONFIG]. *)
Theorem run_template_from_validation
  (LOCATION_FILTER : list string) (location_of : string -> string)
  (devices : list Device) (validate : string -> list string)
  (NEW_CONFIG : string) :
  let target_devices := build_target_devices LOCATION_FILTER location_of devices in
  let updated := fst (validation_loop validate target_devices) in
  (forall device, In device (map fst target_devices) -> validate device <> [] ->
     exists pre post,
       template_lines updated
       = (pre ++ (guard_open device
                  :: map (fun config_item => String.append "no " config_item) (validate device)
                  ++ ["#end"; ""]) ++ post)%list)
  /\ ((forall device, validate device = []) ->
      generateTemplatePayload NEW_CONFIG updated = NEW_CONFIG).
Proof.
  intros target_devices updated.
  destruct (build_target_devices_spec LOCATION_FILTER location_of devices []
              (NoDup_nil _) (fun p H => False_ind _ H)) as [_ [Hnone _]].
  fold (build_target_devices LOCATION_FILTER location_of devices) in Hnone.
  fold target_devices in Hnone.
  assert (Hupd : updated = map (record_after_validation validate) target_devices).
  { unfold updated. now rewrite validation_loop_spec. }
  split.
  - intros device Hin Hv.
    apply in_map_iff in Hin as [[d r0] [Hd Hin0]]. simpl in Hd. subst d.
    apply (template_block_contiguous updated device
             (snd (record_after_validation validate (device, r0)))).
    + rewrite Hupd. apply in_map_iff. exists (device, r0). split; [|exact Hin0].
      reflexivity.
    + simpl. destruct (validate device); [contradiction | reflexivity].
  - intros Hall. unfold generateTemplatePayload, template_payload_lines.
    apply py_join_app_single. apply template_lines_none.
    intros p Hp. rewrite Hupd in Hp.
    apply in_map_iff in Hp as [[d r0] [<- Hin0]]. simpl. rewrite (Hall d).
    exact (Hnone (d, r0) Hin0).
Qed.

Definition core_switch : Device :=
  {| dev_id := "uuid-2"; managementIpAddress := "10.0.0.2";
     family := "Switches and Hubs"; series := "Cisco Catalyst 9500 Series Switches" |}.

Lemma run_template_from_validation_witness :
  let target_devices := build_target_devices [] (fun _ => "Global/Site")
                          [access_switch; core_switch] in
  (forall device : string, (fun _ : string => ([] : list string)) device = []) /\
  generateTemplatePayload "snmp-server host 10.0.0.2 community public"
    (fst (validation_loop (fun _ => []) target_devices))
  = "snmp-server host 10.0.0.2 community public".
Proof.
  intros target_devices.
  assert (Hall : forall device : string, (fun _ : string => ([] : list string)) device = [])
    by reflexivity.
  split; [exact Hall|].
  exact (proj2 (run_template_from_validation [] (fun _ => "Global/Site")
                  [access_switch; core_switch] (fun _ => [])
                  "snmp-server host 10.0.0.2 community public") Hall).
Defined.

(** ** The validator's flag and result *)

Lemma validate_loop_found host community lines acc found :
  snd (validate_loop host community lines acc found)
  = found || existsb (fun line => py_in "snmp-server host" (strip line)) lines.
Proof.
  revert acc found; induction lines as [|line rest IH]; intros acc found; simpl.
  - now rewrite orb_false_r.
  - destruct (py_in "snmp-server host" (strip line)) eqn:E.
    + destruct (_ && _); rewrite IH; now rewrite !orb_true_r.
    + now rewrite IH.
Qed.

(** X14 (validate_snmp_config, empty result): the [config_found] flag is set
    iff some line contains [snmp-server host]; the returned list is empty iff
    every such line contains both the expected host and community, so an
    all-compliant device (flag set) and a device without any
    [snmp-server host] line (flag unset) both return the empty list. *)
Theorem validate_empty_result (host community : string) (running_config : list string) :
  snd (validate_loop host community running_config [] false)
  = existsb (fun line => py_in "snmp-server host" (strip line)) running_config
  /\ (validate_snmp_config host community running_config = []
      <-> forall line, In line running_config ->
            py_in "snmp-server host" (strip line) = true ->
            py_in host line && py_in community line = true).
Proof.
  split; [apply validate_loop_found|].
  unfold validate_snmp_config. rewrite validate_loop_spec. simpl.
  split.
  - intros Hnil line Hin Hsel.
    destruct (py_in host line && py_in community line) eqn:E; [reflexivity|].
    assert (Hf : In line (filter (selected_noncompliant host community)
                            running_config)).
    { apply filter_In. split; [exact Hin|].
      unfold selected_noncompliant. now rewrite Hsel, E. }
    destruct (filter _ _); [destruct Hf | discriminate].
  - intros Hall.
    destruct (filter (selected_noncompliant host community) running_config)
      as [|line rest] eqn:E; [reflexivity|].
    exfalso. assert (Hf : In line (filter (selected_noncompliant host community)
                                     running_config)) by (rewrite E; now left).
    apply filter_In in Hf as [Hin Hb].
    unfold selected_noncompliant in Hb. apply andb_true_iff in Hb as [Hsel Hneg].
    rewrite (Hall line Hin Hsel) in Hneg. discriminate.
Qed.

(** X15 (validate_snmp_config, result lines): every returned line contains
    [snmp-server host], and the result has at most as many lines as the
    running configuration. *)
Theorem validate_result_lines (host community : string) (running_config : list string) :
  (forall x, In x (validate_snmp_config host community running_config) ->
     py_in "snmp-server host" x = true)
  /\ length (validate_snmp_config host community running_config)
     <= length running_config.
Proof.
  unfold validate_snmp_config. rewrite validate_loop_spec. simpl. split.
  - intros x Hx. apply in_map_iff in Hx as [line [<- Hin]].
    apply filter_In in Hin as [_ Hb].
    unfold selected_noncompliant in Hb. now apply andb_true_iff in Hb as [Hsel _].
  - rewrite length_map. apply filter_length_le.
Qed.
